(** * Telebutton: menu model, keyboard layout and callback resolution

    A shallow embedding of [scripts/telebutton.py].  Python objects become
    inductive types, the two module-level dictionaries become finite maps
    held in an explicit [World], and every function that touches the world
    or may raise runs in a small state-and-exception monad [M].  The two
    file helpers ([load_menu_from_file], [save_menu_to_file]) only wrap
    [from_dict] and [to_dict] in file input and output and are not
    modelled; [print] output is not part of the state. *)

From Stdlib Require Import ZArith List String Ascii Lia Bool.
From stdpp Require Import base option list gmap strings pretty.
Import ListNotations.

#[local] Set Warnings "-register-all".
#[local] Open Scope string_scope.
#[local] Open Scope list_scope.
#[local] Open Scope Z_scope.

(** ** Data model *)

(** [ButtonOption] and [ButtonMenu] are the two dataclasses; a menu owns
    its options and an option owns its optional sub-menu. *)
Inductive ButtonOption : Type :=
  mkButtonOption (text callback : string) (sub_menu : option ButtonMenu)
with ButtonMenu : Type :=
  mkButtonMenu (question : string) (options : list ButtonOption)
               (max_per_row : Z) (menu_id : string).

Definition text (self : ButtonOption) : string :=
  match self with mkButtonOption t _ _ => t end.
Definition callback (self : ButtonOption) : string :=
  match self with mkButtonOption _ c _ => c end.
Definition sub_menu (self : ButtonOption) : option ButtonMenu :=
  match self with mkButtonOption _ _ s => s end.

Definition question (self : ButtonMenu) : string :=
  match self with mkButtonMenu q _ _ _ => q end.
Definition options (self : ButtonMenu) : list ButtonOption :=
  match self with mkButtonMenu _ o _ _ => o end.
Definition max_per_row (self : ButtonMenu) : Z :=
  match self with mkButtonMenu _ _ m _ => m end.
Definition menu_id (self : ButtonMenu) : string :=
  match self with mkButtonMenu _ _ _ i => i end.

(** Documents as [json.load] / [yaml.safe_load] return them and as
    [to_dict] builds them.  A dictionary is an association list searched
    from the front (floats do not occur in menu documents and are left
    out). *)
Inductive value : Type :=
| VNone
| VBool (b : bool)
| VInt (z : Z)
| VStr (s : string)
| VList (l : list value)
| VDict (d : list (string * value)).

(** One cell of the inline keyboard: the dict
    [{"text": ..., "callback_data": ...}]. *)
Record Button : Type := mkButton {
  btn_text : string;
  callback_data : string
}.

(** The dict returned by [handle_callback]; the key ["sub_menu"] is
    present exactly when [sel_sub_menu] is [Some]. *)
Record Selection : Type := mkSelection {
  sel_callback : string;
  sel_text : string;
  sel_menu_id : string;
  sel_path : list string;
  sel_sub_menu : option ButtonMenu
}.

(** The JSON body handed to [requests.post]. *)
Record Payload : Type := mkPayload {
  chat_id : option string;
  payload_text : string;
  inline_keyboard : list (list Button)
}.

(** ** Exceptions and outcomes *)

Inductive exn : Type :=
| KeyError (key : string)
| TypeError
| AttributeError
| ValueError
| ZeroDivisionError
| RequestException.

(** Outcome of a Python call.  [IllTyped] is not a Python outcome: it marks
    a call that would store, in a dataclass field, a value outside the
    field's annotation ([str], [int]); dataclasses do not check
    annotations, and such objects have no counterpart in [ButtonMenu]. *)
Inductive PyResult (A : Type) : Type :=
| Return (a : A)
| Raise (e : exn)
| IllTyped.
Arguments Return {A} a.
Arguments Raise {A} e.
Arguments IllTyped {A}.

(** ** The world: module globals and the environment the module talks to *)

Record World : Type := mkWorld {
  (** [_menu_registry] *)
  _menu_registry : gmap string ButtonMenu;
  (** [_pending_selections]; never written by the module *)
  _pending_selections : gmap string Selection;
  (** the strings successive evaluations of [str(uuid.uuid4())[:8]] yield *)
  uuid4 : nat -> string;
  (** how many of them have been drawn *)
  uuid_calls : nat;
  (** [int(time.time())] *)
  time_time : Z;
  (** [os.environ] *)
  environ : gmap string string;
  (** what [requests.post(url, json=payload)] followed by
      [raise_for_status()], [json()] and
      [str(result["result"]["message_id"])] produces *)
  requests_post : string -> Payload -> exn + string
}.

Definition set_registry (r : gmap string ButtonMenu) (w : World) : World :=
  mkWorld r (_pending_selections w) (uuid4 w) (uuid_calls w) (time_time w)
          (environ w) (requests_post w).

Definition set_pending (p : gmap string Selection) (w : World) : World :=
  mkWorld (_menu_registry w) p (uuid4 w) (uuid_calls w) (time_time w)
          (environ w) (requests_post w).

Definition set_uuid_calls (n : nat) (w : World) : World :=
  mkWorld (_menu_registry w) (_pending_selections w) (uuid4 w) n (time_time w)
          (environ w) (requests_post w).

(** ** The monad *)

Definition M (A : Type) : Type := World -> PyResult A * World.

Definition ret {A} (a : A) : M A := fun w => (Return a, w).

Definition bind {A B} (m : M A) (k : A -> M B) : M B :=
  fun w =>
    match m w with
    | (Return a, w') => k a w'
    | (Raise e, w') => (Raise e, w')
    | (IllTyped, w') => (IllTyped, w')
    end.

Definition raise {A} (e : exn) : M A := fun w => (Raise e, w).

Definition ill_typed {A} : M A := fun w => (IllTyped, w).

(** [try: body  except Exception as e: handler(e)] *)
Definition try_except {A} (body : M A) (handler : exn -> M A) : M A :=
  fun w =>
    match body w with
    | (Raise e, w') => handler e w'
    | r => r
    end.

Notation "x <- c1 ;; c2" := (bind c1 (fun x => c2))
  (at level 100, c1 at next level, right associativity).

(** [map] with effects, left to right: a list comprehension whose element
    expression may raise. *)
Definition mapM {A B} (f : A -> M B) : list A -> M (list B) :=
  fix go (l : list A) : M (list B) :=
    match l with
    | [] => ret []
    | x :: l' => y <- f x ;; ys <- go l' ;; ret (y :: ys)
    end.

(** [str(uuid.uuid4())[:8]], the [default_factory] of [menu_id]. *)
Definition uuid8 : M string :=
  fun w => (Return (uuid4 w (uuid_calls w)), set_uuid_calls (S (uuid_calls w)) w).

(** [os.getenv(name)] *)
Definition getenv (name : string) : M (option string) :=
  fun w => (Return (environ w !! name), w).

(** ** Dictionaries *)

(** [dict_find key found missing d] is [found d[key]] when [key in d] and
    [missing] otherwise.  The continuation form lets the deserializers
    recurse structurally into the value found. *)
Definition dict_find {A} (key : string) (found : value -> A) (missing : A)
  : list (string * value) -> A :=
  fix find (d : list (string * value)) : A :=
    match d with
    | [] => missing
    | (k, v) :: d' => if String.eqb k key then found v else find d'
    end.

(** [d.get(key)] *)
Definition dict_get (key : string) (d : list (string * value)) : option value :=
  dict_find key Some None d.

(** [d[key]] *)
Definition dict_index (key : string) (d : list (string * value)) : M value :=
  match dict_get key d with
  | Some v => ret v
  | None => raise (KeyError key)
  end.

(** A field read into a [str]-annotated, resp. [int]-annotated, slot. *)
Definition as_str (v : value) : M string :=
  match v with VStr s => ret s | _ => ill_typed end.

Definition as_int (v : value) : M Z :=
  match v with VInt z => ret z | _ => ill_typed end.

(** ** Serialization *)

(** [ButtonOption.to_dict] and [ButtonMenu.to_dict].  A dataclass instance
    is always truthy, so [if self.sub_menu:] tests for [None]. *)
Fixpoint ButtonOption_to_dict (self : ButtonOption) : value :=
  match self with
  | mkButtonOption text callback sub_menu =>
      let result := [("text", VStr text); ("callback", VStr callback)] in
      match sub_menu with
      | Some m => VDict (result ++ [("sub_menu", ButtonMenu_to_dict m)])
      | None => VDict result
      end
  end
with ButtonMenu_to_dict (self : ButtonMenu) : value :=
  match self with
  | mkButtonMenu question options max_per_row menu_id =>
      VDict [("question", VStr question);
             ("options", VList (List.map ButtonOption_to_dict options));
             ("max_per_row", VInt max_per_row);
             ("menu_id", VStr menu_id)]
  end.

(** The dataclass constructor [ButtonMenu(question=, options=, max_per_row=)]:
    [menu_id] comes from the default factory. *)
Definition ButtonMenu_init (question : string) (options : list ButtonOption)
    (max_per_row : Z) : M ButtonMenu :=
  menu_id <- uuid8 ;;
  ret (mkButtonMenu question options max_per_row menu_id).

(** The assignment [menu.menu_id = ...]. *)
Definition set_menu_id (menu : ButtonMenu) (new_id : string) : ButtonMenu :=
  match menu with
  | mkButtonMenu question options max_per_row _ =>
      mkButtonMenu question options max_per_row new_id
  end.

(** [ButtonOption.from_dict] and [ButtonMenu.from_dict].

    What Python does on a value of the wrong shape is kept: [.get] on a
    non-dict raises [AttributeError]; [in] and [[...]] on a non-dict option
    raise [TypeError]; iterating an ["options"] value that is an empty
    string or an empty dict yields no option, while a non-empty one yields
    strings, on which [ButtonOption.from_dict] raises [TypeError]. *)
Fixpoint ButtonMenu_from_dict (data : value) {struct data} : M ButtonMenu :=
  match data with
  | VDict d =>
      options <-
        dict_find "options"
          (fun v =>
             match v with
             | VList l => mapM ButtonOption_from_dict l
             | VStr "" => ret []
             | VDict [] => ret []
             | _ => raise TypeError
             end)
          (ret []) d ;;
      question <- (v <- dict_index "question" d ;; as_str v) ;;
      max_per_row <-
        match dict_get "max_per_row" d with
        | Some v => as_int v
        | None => ret 2
        end ;;
      menu <- ButtonMenu_init question options max_per_row ;;
      match dict_get "menu_id" d with
      | Some v => menu_id <- as_str v ;; ret (set_menu_id menu menu_id)
      | None => ret menu
      end
  | _ => raise AttributeError
  end
with ButtonOption_from_dict (data : value) {struct data} : M ButtonOption :=
  match data with
  | VDict d =>
      sub_menu <-
        dict_find "sub_menu"
          (fun v => m <- ButtonMenu_from_dict v ;; ret (Some m))
          (ret None) d ;;
      text <- (v <- dict_index "text" d ;; as_str v) ;;
      callback <- (v <- dict_index "callback" d ;; as_str v) ;;
      ret (mkButtonOption text callback sub_menu)
  | _ => raise TypeError
  end.

(** ** Menu queries *)

(** [ButtonMenu.find_option]: the first option whose callback equals the
    argument. *)
Definition find_option (self : ButtonMenu) (callback : string)
  : option ButtonOption :=
  (fix scan (opts : list ButtonOption) : option ButtonOption :=
     match opts with
     | [] => None
     | opt :: rest =>
         let 'mkButtonOption _ opt_callback _ := opt in
         if String.eqb opt_callback callback then Some opt else scan rest
     end) (options self).

(** [ButtonMenu.get_all_callbacks]: pre-order, an option's own token before
    those of its sub-menu. *)
Fixpoint get_all_callbacks (self : ButtonMenu) : list string :=
  match self with
  | mkButtonMenu _ options _ _ =>
      List.concat (List.map option_callbacks options)
  end
with option_callbacks (opt : ButtonOption) : list string :=
  match opt with
  | mkButtonOption _ callback None => [callback]
  | mkButtonOption _ callback (Some m) => callback :: get_all_callbacks m
  end.

(** ** Keyboard layout *)

(** The address token [f"{menu.menu_id}:{option.callback}"]. *)
Definition address_token (menu_id callback : string) : string :=
  menu_id +:+ ":" +:+ callback.

(** The body of the [for i, option in enumerate(menu.options)] loop of
    [_generate_inline_keyboard], from index [i] on, with the rows closed so
    far in [keyboard] and the open row in [row].  Python's [%] raises
    [ZeroDivisionError] on a zero divisor and otherwise agrees with
    [Z.modulo] (the result takes the sign of the divisor). *)
Fixpoint keyboard_loop (menu : ButtonMenu) (i : Z) (opts : list ButtonOption)
    (keyboard : list (list Button)) (row : list Button)
  : PyResult (list (list Button) * list Button) :=
  match opts with
  | [] => Return (keyboard, row)
  | option :: rest =>
      let callback_data := address_token (menu_id menu) (callback option) in
      let row := row ++ [mkButton (text option) callback_data] in
      if max_per_row menu =? 0 then Raise ZeroDivisionError
      else if (i + 1) mod max_per_row menu =? 0
           then keyboard_loop menu (i + 1) rest (keyboard ++ [row]) []
           else keyboard_loop menu (i + 1) rest keyboard row
  end.

Definition _generate_inline_keyboard (menu : ButtonMenu)
  : PyResult (list (list Button)) :=
  match keyboard_loop menu 0 (options menu) [] [] with
  | Return (keyboard, row) =>
      match row with
      | [] => Return keyboard
      | _ :: _ => Return (keyboard ++ [row])
      end
  | Raise e => Raise e
  | IllTyped => IllTyped
  end.

(** A pure computation that may raise, run inside [M]. *)
Definition lift {A} (r : PyResult A) : M A := fun w => (r, w).

(** ** Transports *)

(** [_send_via_openclaw]: returns the simulated id [f"msg_{int(time.time())}"]
    (the debugging [print]s are not part of the modelled state). *)
Definition _send_via_openclaw (text : string) (keyboard : list (list Button))
    (chat_id : option string) : M (option string) :=
  fun w => (Return (Some ("msg_" +:+ pretty (time_time w))), w).

(** Truthiness of an [Optional[str]]: [None] and [""] are falsy. *)
Definition truthy (s : option string) : bool :=
  match s with
  | None => false
  | Some "" => false
  | Some _ => true
  end.

(** [_send_via_telegram_api]: a missing or empty [TELEGRAM_BOT_TOKEN]
    raises [ValueError] before the [try]; every exception inside the [try]
    is swallowed and [None] returned. *)
Definition _send_via_telegram_api (text : string) (keyboard : list (list Button))
    (chat_id : option string) : M (option string) :=
  bot_token <- getenv "TELEGRAM_BOT_TOKEN" ;;
  if negb (truthy bot_token) then raise ValueError
  else
    let api_url :=
      "https://api.telegram.org/bot" +:+ default "" bot_token +:+ "/sendMessage" in
    env_chat <- getenv "TELEGRAM_CHAT_ID" ;;
    let payload :=
      mkPayload (if truthy chat_id then chat_id else env_chat) text keyboard in
    try_except
      (fun w =>
         match requests_post w api_url payload with
         | inr message_id => (Return (Some message_id), w)
         | inl e => (Raise e, w)
         end)
      (fun e => ret None).

(** ** Presenting, resolving, waiting, clearing *)

(** [show_menu]: register, lay out, dispatch. *)
Definition show_menu (menu : ButtonMenu) (chat_id : option string)
    (use_openclaw : bool) : M (option string) :=
  _ <- (fun w => (Return tt,
                  set_registry (<[menu_id menu := menu]> (_menu_registry w)) w)) ;;
  keyboard <- lift (_generate_inline_keyboard menu) ;;
  if use_openclaw
  then _send_via_openclaw (question menu) keyboard chat_id
  else _send_via_telegram_api (question menu) keyboard chat_id.

(** [s.split(":", 1)]: a single-element list when the separator is absent,
    otherwise the text before the first separator and the text after it. *)
Fixpoint split_once (sep : ascii) (s : string) : list string :=
  match s with
  | EmptyString => [""]
  | String c s' =>
      if Ascii.eqb c sep then [""; s']
      else match split_once sep s' with
           | head :: tail => String c head :: tail
           | [] => [String c ""]
           end
  end.

(** [wait_selection]: computes [wait_key] and [start_time], uses neither,
    and returns [None]. *)
Definition wait_selection (menu_id : option string) (timeout : Z)
    (delete_message : bool) : M (option Selection) :=
  fun w =>
    let wait_key := if truthy menu_id then default "" menu_id else "any" in
    let start_time := time_time w in
    (Return None, w).

(** [handle_callback]: split on the first [":"], look the menu up, scan its
    options.  Menus and options are always truthy, so [if not menu:] and
    [if not option:] test for [None]. *)
Definition handle_callback (callback_data : string) : M (option Selection) :=
  try_except
    (match split_once ":" callback_data with
     | [menu_id; callback] =>
         menu <- (fun w => (Return (_menu_registry w !! menu_id), w)) ;;
         match menu with
         | None => ret None
         | Some menu =>
             match find_option menu callback with
             | None => ret None
             | Some option =>
                 let result :=
                   mkSelection callback (text option) menu_id [callback] None in
                 match sub_menu option with
                 | Some sub =>
                     ret (Some (mkSelection (sel_callback result) (sel_text result)
                                  (sel_menu_id result) (sel_path result) (Some sub)))
                 | None => ret (Some result)
                 end
             end
         end
     | _ => ret None
     end)
    (fun e => ret None).


(** [clear_menu] *)
Definition clear_menu (menu_id : string) : M unit :=
  fun w =>
    if decide (is_Some (_menu_registry w !! menu_id))
    then (Return tt, set_registry (delete menu_id (_menu_registry w)) w)
    else (Return tt, w).

(** [clear_all_menus] *)
Definition clear_all_menus : M unit :=
  fun w => (Return tt, set_pending ∅ (set_registry ∅ w)).

(** ** Separators, reasons and example menus *)

(** [contains sep s]: the character [sep] occurs in [s]. *)
Fixpoint contains (sep : ascii) (s : string) : bool :=
  match s with
  | EmptyString => false
  | String c s' => Ascii.eqb c sep || contains sep s'
  end.

(** The three reasons the specification attaches to an unresolvable
    address token. *)
Inductive Reason : Type := malformed | unknown_menu | unknown_option.

(** A world with empty registries, no environment variables, an
    unreachable network, and the ids [u0], [u1], ... to draw. *)
Definition empty_world : World :=
  mkWorld ∅ ∅ (fun n => "u" +:+ pretty n) 0 1700000000 ∅
          (fun _ _ => inl RequestException).

(** The menu of the routing example: options [A/a] and [B/b] under ["m1"];
    here [b] also opens a sub-menu ["s1"]. *)
Definition menu_s1 : ButtonMenu :=
  mkButtonMenu "S" [mkButtonOption "X" "x" None] 2 "s1".

Definition menu_m1 : ButtonMenu :=
  mkButtonMenu "Q"
    [mkButtonOption "A" "a" None; mkButtonOption "B" "b" (Some menu_s1)] 2 "m1".

Definition world_m1 : World := snd (show_menu menu_m1 None true empty_world).

(** A menu whose identifier contains the separator. *)
Definition menu_ab : ButtonMenu :=
  mkButtonMenu "Q" [mkButtonOption "A" "a" None] 2 "a:b".

Definition world_ab : World := snd (show_menu menu_ab None true empty_world).

(** A root ["m"] whose option [x:a] owns the sub-menu ["m:x"]. *)
Definition menu_sep_sub : ButtonMenu :=
  mkButtonMenu "S" [mkButtonOption "A" "a" None] 2 "m:x".

Definition menu_sep_root : ButtonMenu :=
  mkButtonMenu "Q" [mkButtonOption "X" "x:a" (Some menu_sep_sub)] 2 "m".

(** A root ["m"] whose option [x] owns a sub-menu that is also called
    ["m"]. *)
Definition menu_dup_sub : ButtonMenu :=
  mkButtonMenu "S" [mkButtonOption "A" "x" None] 2 "m".

Definition menu_dup_root : ButtonMenu :=
  mkButtonMenu "Q" [mkButtonOption "X" "x" (Some menu_dup_sub)] 2 "m".

(** ** Menu definition documents *)

Definition is_str (v : value) : bool :=
  match v with VStr _ => true | _ => false end.

Definition is_int (v : value) : bool :=
  match v with VInt _ => true | _ => false end.

(** [key in d] *)
Definition dict_has (key : string) (d : list (string * value)) : bool :=
  dict_find key (fun _ => true) false d.

(** The file format
    [{question, options: [{text, callback, sub_menu?}], max_per_row?, menu_id?}]:
    a dict whose fields, where present, have the annotated types, nested
    through [sub_menu].  No field is required here. *)
Fixpoint menu_document (data : value) : bool :=
  match data with
  | VDict d =>
      dict_find "question" is_str true d
      && dict_find "options"
           (fun v =>
              match v with
              | VList l => forallb option_document l
              | _ => false
              end) true d
      && dict_find "max_per_row" is_int true d
      && dict_find "menu_id" is_str true d
  | _ => false
  end
with option_document (data : value) : bool :=
  match data with
  | VDict d =>
      dict_find "text" is_str true d
      && dict_find "callback" is_str true d
      && dict_find "sub_menu" menu_document true d
  | _ => false
  end.

(** The required fields are present: [question] in the menu and in every
    nested sub-menu, [text] and [callback] in every listed option. *)
Fixpoint menu_complete (data : value) : bool :=
  match data with
  | VDict d =>
      dict_has "question" d
      && dict_find "options"
           (fun v =>
              match v with
              | VList l => forallb option_complete l
              | _ => true
              end) true d
  | _ => false
  end
with option_complete (data : value) : bool :=
  match data with
  | VDict d =>
      dict_has "text" d && dict_has "callback" d
      && dict_find "sub_menu" menu_complete true d
  | _ => false
  end.









(** ** Notions used by the further properties *)

(** [option_in_tree o m]: [o] is an option of [m] or of a sub-menu nested
    below one of its options. *)
Inductive option_in_tree : ButtonOption -> ButtonMenu -> Prop :=
| in_tree_here (o : ButtonOption) (m : ButtonMenu) :
    In o (options m) -> option_in_tree o m
| in_tree_below (o p : ButtonOption) (s m : ButtonMenu) :
    In p (options m) -> sub_menu p = Some s -> option_in_tree o s ->
    option_in_tree o m.

(** The menu with another [max_per_row]. *)
Definition set_max_per_row (menu : ButtonMenu) (n : Z) : ButtonMenu :=
  match menu with
  | mkButtonMenu question options _ menu_id =>
      mkButtonMenu question options n menu_id
  end.

(** The cell [_generate_inline_keyboard] lays out for one option. *)
Definition button_of (menu : ButtonMenu) (o : ButtonOption) : Button :=
  mkButton (text o) (address_token (menu_id menu) (callback o)).

(** A menu with [max_per_row = 0] and one with a negative [max_per_row]. *)
Definition menu_zero : ButtonMenu :=
  mkButtonMenu "Q" [mkButtonOption "A" "a" None] 0 "z0".

Definition menu_neg : ButtonMenu :=
  mkButtonMenu "Q"
    [mkButtonOption "A" "a" None; mkButtonOption "B" "b" None;
     mkButtonOption "C" "c" None] (-2) "n1".

(** A world in which a bot token is configured and the gateway answers
    with message id ["42"]. *)
Definition world_token : World :=
  mkWorld ∅ ∅ (fun n => "u" +:+ pretty n) 0 1700000000
          (<[ "TELEGRAM_BOT_TOKEN" := "t0k" ]> ∅) (fun _ _ => inr "42").

(** [only_draws w w']: [w'] is [w] with the identifier counter advanced;
    [frame m]: running [m] changes the world in no other way. *)
Definition only_draws (w w' : World) : Prop :=
  exists n, (uuid_calls w <= n)%nat /\ w' = set_uuid_calls n w.

Definition frame {A} (m : M A) : Prop :=
  forall w, only_draws w (snd (m w)).

(** A document that has nothing but a question, and an option document
    whose [sub_menu] is [null]. *)
Definition document_question_only : list (string * value) :=
  [("question", VStr "Q")].

Definition document_null_sub_menu : list (string * value) :=
  [("text", VStr "A"); ("callback", VStr "a"); ("sub_menu", VNone)].

(** ** Induction principles for the nested types *)

Section TreeInduction.
Variables (P : ButtonMenu -> Prop) (Q : ButtonOption -> Prop).
Hypothesis Hmenu :
  forall question options max_per_row menu_id,
    Forall Q options -> P (mkButtonMenu question options max_per_row menu_id).
Hypothesis Hleaf : forall text callback, Q (mkButtonOption text callback None).
Hypothesis Hsub :
  forall text callback m, P m -> Q (mkButtonOption text callback (Some m)).

Fixpoint ButtonMenu_tree_ind (m : ButtonMenu) : P m :=
  match m with
  | mkButtonMenu question options max_per_row menu_id =>
      Hmenu question options max_per_row menu_id
        ((fix all (l : list ButtonOption) : Forall Q l :=
            match l with
            | [] => List.Forall_nil Q
            | o :: l' => @List.Forall_cons _ Q o l' (ButtonOption_tree_ind o) (all l')
            end) options)
  end
with ButtonOption_tree_ind (o : ButtonOption) : Q o :=
  match o with
  | mkButtonOption text callback None => Hleaf text callback
  | mkButtonOption text callback (Some m) =>
      Hsub text callback m (ButtonMenu_tree_ind m)
  end.
End TreeInduction.

Section ValueInduction.
Variable P : value -> Prop.
Hypothesis Hnone : P VNone.
Hypothesis Hbool : forall b, P (VBool b).
Hypothesis Hint : forall z, P (VInt z).
Hypothesis Hstr : forall s, P (VStr s).
Hypothesis Hlist : forall l, Forall P l -> P (VList l).
Hypothesis Hdict : forall d, Forall (fun kv => P (snd kv)) d -> P (VDict d).

Fixpoint value_tree_ind (v : value) : P v :=
  match v with
  | VNone => Hnone
  | VBool b => Hbool b
  | VInt z => Hint z
  | VStr s => Hstr s
  | VList l =>
      Hlist l
        ((fix all (l : list value) : Forall P l :=
            match l with
            | [] => List.Forall_nil P
            | x :: l' => @List.Forall_cons _ P x l' (value_tree_ind x) (all l')
            end) l)
  | VDict d =>
      Hdict d
        ((fix all (d : list (string * value)) : Forall (fun kv => P (snd kv)) d :=
            match d with
            | [] => List.Forall_nil _
            | kv :: d' =>
                @List.Forall_cons _ (fun kv => P (snd kv)) kv d'
                  (value_tree_ind (snd kv)) (all d')
            end) d)
  end.
End ValueInduction.

(** ** Splitting address tokens *)

Lemma split_once_absent (sep : ascii) (s : string) :
  contains sep s = false -> split_once sep s = [s].
Proof.
  induction s as [|c s IH]; simpl; [reflexivity|].
  intros H. apply orb_false_iff in H as [Hc Hs].
  rewrite Hc, (IH Hs). reflexivity.
Qed.

Lemma split_once_present (sep : ascii) (a b : string) :
  contains sep a = false -> split_once sep (a +:+ String sep b) = [a; b].
Proof.
  induction a as [|c a IH]; simpl.
  - intros _. rewrite Ascii.eqb_refl. reflexivity.
  - intros H. apply orb_false_iff in H as [Hc Ha].
    rewrite Hc, (IH Ha). reflexivity.
Qed.

Lemma split_once_token (menu_id callback : string) :
  contains ":" menu_id = false ->
  split_once ":" (address_token menu_id callback) = [menu_id; callback].
Proof.
  intros H. unfold address_token. simpl. now apply split_once_present.
Qed.

Lemma split_once_two (sep : ascii) (s a b : string) :
  split_once sep s = [a; b] ->
  s = a +:+ String sep b /\ contains sep a = false.
Proof.
  revert a b. induction s as [|c s IH]; simpl; intros a b H; [discriminate|].
  destruct (Ascii.eqb c sep) eqn:Hc.
  - apply Ascii.eqb_eq in Hc. inversion H; subst. split; reflexivity.
  - destruct (split_once sep s) as [|hd tl] eqn:Hs; [discriminate|].
    inversion H; subst. destruct (IH hd b eq_refl) as [-> Hhd].
    simpl. rewrite Hc, Hhd. split; reflexivity.
Qed.

(** ** Resolution never raises and never writes *)

Lemma handle_callback_total (callback_data : string) (w : World) :
  exists r, handle_callback callback_data w = (Return r, w).
Proof.
  unfold handle_callback, try_except, bind, ret.
  destruct (split_once ":" callback_data) as [|menu_id [|callback [|x l]]];
    try (eexists; reflexivity).
  destruct (_menu_registry w !! menu_id) as [menu|]; [|eexists; reflexivity].
  destruct (find_option menu callback) as [option|]; [|eexists; reflexivity].
  destruct (sub_menu option); eexists; reflexivity.
Qed.

Lemma handle_callback_split (callback_data menu_id callback : string) (w : World) :
  split_once ":" callback_data = [menu_id; callback] ->
  handle_callback callback_data w =
    (Return
       (match _menu_registry w !! menu_id with
        | None => None
        | Some menu =>
            match find_option menu callback with
            | None => None
            | Some option =>
                Some (mkSelection callback (text option) menu_id [callback]
                                  (sub_menu option))
            end
        end), w).
Proof.
  intros Hs. unfold handle_callback, try_except, bind, ret. rewrite Hs.
  destruct (_menu_registry w !! menu_id) as [menu|]; [|reflexivity].
  destruct (find_option menu callback) as [option|]; [|reflexivity].
  destruct (sub_menu option); reflexivity.
Qed.

Lemma handle_callback_malformed (callback_data : string) (w : World) :
  contains ":" callback_data = false ->
  handle_callback callback_data w = (Return None, w).
Proof.
  intros H. unfold handle_callback, try_except.
  rewrite (split_once_absent _ _ H). reflexivity.
Qed.

(** ** Registry effects *)

Lemma show_menu_registry (menu : ButtonMenu) (chat_id : option string)
    (use_openclaw : bool) (w : World) :
  _menu_registry (snd (show_menu menu chat_id use_openclaw w)) =
    <[menu_id menu := menu]> (_menu_registry w).
Proof.
  unfold show_menu, bind, lift; simpl.
  destruct (_generate_inline_keyboard menu) as [keyboard|e|]; try reflexivity.
  destruct use_openclaw; [reflexivity|].
  unfold _send_via_telegram_api, bind, getenv, raise, try_except, ret; simpl.
  destruct (truthy (environ w !! "TELEGRAM_BOT_TOKEN")); simpl; [|reflexivity].
  match goal with |- context [requests_post ?a ?b ?c] =>
    destruct (requests_post a b c) end; reflexivity.
Qed.



(** ** Callback routing *)

(** C1 (as amended): for a menu [m] registered under its own identifier,
    whose identifier does not contain the separator [":"], and a callback
    token [c] for which [find_option m c] returns [o], resolving
    [m.menu_id + ":" + c] returns the selection with callback [c], text
    [o.text], menu id [m.menu_id], path [[c]] and [o]'s sub-menu exactly
    when [o] has one; the world is left as it was. *)
Theorem handle_callback_registered_option
    (w : World) (m : ButtonMenu) (c : string) (o : ButtonOption) :
  _menu_registry w !! menu_id m = Some m ->
  find_option m c = Some o ->
  contains ":" (menu_id m) = false ->
  handle_callback (address_token (menu_id m) c) w =
    (Return (Some (mkSelection c (text o) (menu_id m) [c] (sub_menu o))), w).
Proof.
  intros Hreg Hfind Hsep.
  rewrite (handle_callback_split _ _ _ w (split_once_token _ c Hsep)).
  rewrite Hreg, Hfind. reflexivity.
Qed.

Lemma handle_callback_registered_option_witness :
  handle_callback "m1:b" world_m1 =
    (Return (Some (mkSelection "b" "B" "m1" ["b"] (Some menu_s1))), world_m1).
Proof.
  apply (handle_callback_registered_option world_m1 menu_m1 "b"
           (mkButtonOption "B" "b" (Some menu_s1))); reflexivity.
Defined.

(** C1 (as stated) fails when the identifier of the registered menu
    contains the separator: [menu_ab] is registered under ["a:b"] and has
    the option [a], yet the token ["a:b:a"] is split into ["a"] and
    ["b:a"], no menu ["a"] is found, and the result is [None]. *)
Lemma handle_callback_separator_in_menu_id :
  _menu_registry world_ab !! menu_id menu_ab = Some menu_ab /\
  find_option menu_ab "a" = Some (mkButtonOption "A" "a" None) /\
  address_token (menu_id menu_ab) "a" = "a:b:a" /\
  handle_callback "a:b:a" world_ab = (Return None, world_ab).
Proof. repeat split; reflexivity. Qed.

(** C2 (as amended): [handle_callback] never raises and never changes the
    world; it returns the single value [None], which carries no reason,
    when the separator is absent, when the split-off menu id is not
    registered (in particular right after [clear_menu] of that id), and
    when the registered menu has no option with the split-off callback. *)
Theorem handle_callback_unresolvable (w : World) (callback_data : string) :
  (exists r, handle_callback callback_data w = (Return r, w)) /\
  (contains ":" callback_data = false ->
     handle_callback callback_data w = (Return None, w)) /\
  (forall id c, split_once ":" callback_data = [id; c] ->
     (_menu_registry w !! id = None ->
        handle_callback callback_data w = (Return None, w)) /\
     fst (handle_callback callback_data (snd (clear_menu id w))) = Return None /\
     (forall menu, _menu_registry w !! id = Some menu ->
        find_option menu c = None ->
        handle_callback callback_data w = (Return None, w))).
Proof.
  split; [apply handle_callback_total|].
  split; [apply handle_callback_malformed|].
  intros id c Hs. repeat split.
  - intros Hreg. rewrite (handle_callback_split _ _ _ w Hs), Hreg. reflexivity.
  - rewrite (handle_callback_split _ _ _ _ Hs). unfold clear_menu.
    destruct (decide (is_Some (_menu_registry w !! id))) as [Hin|Hout]; simpl.
    + rewrite lookup_delete_eq. reflexivity.
    + destruct (_menu_registry w !! id) eqn:E; [|reflexivity].
      exfalso. apply Hout. eauto.
  - intros menu Hreg Hfind.
    rewrite (handle_callback_split _ _ _ w Hs), Hreg, Hfind. reflexivity.
Qed.

Lemma handle_callback_unresolvable_witness :
  handle_callback "noSeparatorHere" world_m1 = (Return None, world_m1) /\
  handle_callback "ghost:a" world_m1 = (Return None, world_m1) /\
  fst (handle_callback "m1:a" (snd (clear_menu "m1" world_m1))) = Return None /\
  handle_callback "m1:z" world_m1 = (Return None, world_m1).
Proof.
  split; [|split; [|split]].
  - apply (proj1 (proj2 (handle_callback_unresolvable world_m1 "noSeparatorHere"))).
    reflexivity.
  - apply (proj1 (proj2 (proj2 (handle_callback_unresolvable world_m1 "ghost:a"))
                    "ghost" "a" eq_refl)).
    reflexivity.
  - apply (proj1 (proj2 (proj2 (proj2 (handle_callback_unresolvable world_m1 "m1:a"))
                    "m1" "a" eq_refl))).
  - apply (proj2 (proj2 (proj2 (proj2 (handle_callback_unresolvable world_m1 "m1:z"))
                    "m1" "z" eq_refl)) menu_m1); reflexivity.
Defined.

(** C2 (as stated) fails: the three kinds of unresolvable token all yield
    the same value [None], so no reading of the outcome recovers the reason
    the claim attaches to each kind. *)
Lemma handle_callback_reason_not_observable :
  fst (handle_callback "noSeparatorHere" world_m1) = Return None /\
  fst (handle_callback "ghost:a" world_m1) = Return None /\
  fst (handle_callback "m1:z" world_m1) = Return None /\
  ~ exists reason_of : PyResult (option Selection) -> Reason,
      (forall w tok, contains ":" tok = false ->
         reason_of (fst (handle_callback tok w)) = malformed) /\
      (forall w id c, contains ":" id = false -> _menu_registry w !! id = None ->
         reason_of (fst (handle_callback (address_token id c) w)) = unknown_menu) /\
      (forall w id c menu, contains ":" id = false ->
         _menu_registry w !! id = Some menu -> find_option menu c = None ->
         reason_of (fst (handle_callback (address_token id c) w)) = unknown_option).
Proof.
  repeat split; try reflexivity.
  intros (reason_of & Hmal & Hmenu & _).
  specialize (Hmal world_m1 "noSeparatorHere" eq_refl).
  specialize (Hmenu world_m1 "ghost" "a" eq_refl eq_refl).
  change (fst (handle_callback "noSeparatorHere" world_m1))
    with (Return (@None Selection)) in Hmal.
  change (fst (handle_callback (address_token "ghost" "a") world_m1))
    with (Return (@None Selection)) in Hmenu.
  congruence.
Qed.

(** ** Registry lifecycle *)

(** C5 (as amended): presenting a root menu changes the registry at the
    root's identifier only.  For an option of the root that carries a
    sub-menu whose identifier is not yet a registry key, differs from the
    root's identifier and does not contain the separator, every address
    token formed from the sub-menu's identifier resolves to [None];
    resolving never writes to the world, and resolving the parent option
    (root identifier free of the separator) hands the sub-menu back as data
    only. *)
Theorem show_menu_leaves_sub_menu_unregistered
    (w : World) (root sub : ButtonMenu) (o : ButtonOption)
    (chat : option string) (use_openclaw : bool) :
  In o (options root) ->
  sub_menu o = Some sub ->
  _menu_registry w !! menu_id sub = None ->
  menu_id sub <> menu_id root ->
  contains ":" (menu_id sub) = false ->
  let w' := snd (show_menu root chat use_openclaw w) in
  _menu_registry w' = <[menu_id root := root]> (_menu_registry w) /\
  _menu_registry w' !! menu_id sub = None /\
  (forall c, handle_callback (address_token (menu_id sub) c) w' = (Return None, w')) /\
  (forall tok, snd (handle_callback tok w') = w') /\
  (forall c, find_option root c = Some o ->
     contains ":" (menu_id root) = false ->
     handle_callback (address_token (menu_id root) c) w' =
       (Return (Some (mkSelection c (text o) (menu_id root) [c] (Some sub))), w')).
Proof.
  intros Hin Hsub Hfresh Hne Hsep w'.
  assert (Hreg : _menu_registry w' = <[menu_id root := root]> (_menu_registry w))
    by apply show_menu_registry.
  assert (Hnone : _menu_registry w' !! menu_id sub = None).
  { rewrite Hreg, lookup_insert_ne by congruence. exact Hfresh. }
  repeat split; try assumption.
  - intros c.
    rewrite (handle_callback_split _ _ _ w' (split_once_token _ c Hsep)), Hnone.
    reflexivity.
  - intros tok. destruct (handle_callback_total tok w') as [r Hr].
    rewrite Hr. reflexivity.
  - intros c Hfind Hroot.
    rewrite (handle_callback_split _ _ _ w' (split_once_token _ c Hroot)).
    rewrite Hreg, lookup_insert_eq, Hfind, Hsub. reflexivity.
Qed.

Lemma show_menu_leaves_sub_menu_unregistered_witness :
  _menu_registry world_m1 = <[ "m1" := menu_m1 ]> ∅ /\
  _menu_registry world_m1 !! "s1" = None /\
  (forall c, handle_callback (address_token "s1" c) world_m1 = (Return None, world_m1)) /\
  (forall tok, snd (handle_callback tok world_m1) = world_m1) /\
  (forall c, find_option menu_m1 c = Some (mkButtonOption "B" "b" (Some menu_s1)) ->
     contains ":" "m1" = false ->
     handle_callback (address_token "m1" c) world_m1 =
       (Return (Some (mkSelection c "B" "m1" [c] (Some menu_s1))), world_m1)).
Proof.
  apply (show_menu_leaves_sub_menu_unregistered empty_world menu_m1 menu_s1
           (mkButtonOption "B" "b" (Some menu_s1)) None true).
  - simpl. right. left. reflexivity.
  - reflexivity.
  - reflexivity.
  - discriminate.
  - reflexivity.
Defined.

(** C5 (as stated) fails in two ways, in both of which the sub-menu is
    never presented.  With the sub-menu identifier ["m:x"], the token
    ["m:x:a"] formed from it is routed to the root ["m"] and resolves to the
    root's option [x:a].  With a sub-menu identifier equal to the root's,
    the token ["m:x"] formed from it resolves to the root's option [x]. *)
Lemma show_menu_sub_menu_token_resolves :
  (let w' := snd (show_menu menu_sep_root None true empty_world) in
   _menu_registry w' = <[ "m" := menu_sep_root ]> ∅ /\
   _menu_registry w' !! menu_id menu_sep_sub = None /\
   address_token (menu_id menu_sep_sub) "a" = "m:x:a" /\
   fst (handle_callback "m:x:a" w') =
     Return (Some (mkSelection "x:a" "X" "m" ["x:a"] (Some menu_sep_sub)))) /\
  (let w' := snd (show_menu menu_dup_root None true empty_world) in
   _menu_registry w' = <[ "m" := menu_dup_root ]> ∅ /\
   address_token (menu_id menu_dup_sub) "x" = "m:x" /\
   fst (handle_callback "m:x" w') =
     Return (Some (mkSelection "x" "X" "m" ["x"] (Some menu_dup_sub)))).
Proof. repeat split; reflexivity. Qed.

(** C10: for an identifier that is not registered, [clear_menu] returns
    normally and leaves the world, hence the registry, as it was; for a
    registered identifier it returns normally, removes that entry and
    leaves every other entry, and the rest of the world, unchanged. *)
Theorem clear_menu_frame (id : string) (w : World) :
  (_menu_registry w !! id = None -> clear_menu id w = (Return tt, w)) /\
  (is_Some (_menu_registry w !! id) ->
     clear_menu id w = (Return tt, set_registry (delete id (_menu_registry w)) w) /\
     _menu_registry (snd (clear_menu id w)) !! id = None /\
     (forall k, k <> id ->
        _menu_registry (snd (clear_menu id w)) !! k = _menu_registry w !! k)).
Proof.
  unfold clear_menu. split.
  - intros Hnone.
    destruct (decide (is_Some (_menu_registry w !! id))) as [[m Hm]|_];
      [congruence|reflexivity].
  - intros Hsome.
    destruct (decide (is_Some (_menu_registry w !! id))) as [_|Hno];
      [|contradiction].
    simpl. split; [reflexivity|]. split.
    + apply lookup_delete_eq.
    + intros k Hk. apply lookup_delete_ne. congruence.
Qed.

Lemma clear_menu_frame_witness :
  clear_menu "ghost" world_m1 = (Return tt, world_m1) /\
  _menu_registry (snd (clear_menu "m1" world_m1)) !! "m1" = None.
Proof.
  split.
  - apply (proj1 (clear_menu_frame "ghost" world_m1)). reflexivity.
  - apply (proj2 (clear_menu_frame "m1" world_m1)).
    exists menu_m1. reflexivity.
Defined.

(** ** Waiting *)

(** C6: whatever the filter, the timeout, the flag and the world
    (registered menus, pending selections, clock), [wait_selection]
    returns [None] at once and leaves the world as it was; it never returns
    a selection. *)
Theorem wait_selection_returns_None
    (filter : option string) (timeout : Z) (delete_message : bool) (w : World) :
  wait_selection filter timeout delete_message w = (Return None, w) /\
  (forall sel, fst (wait_selection filter timeout delete_message w)
               <> Return (Some sel)).
Proof. split; [reflexivity|]. intros sel. discriminate. Qed.

(** The routing example once more: the tap on [a] resolves to a selection
    for menu ["m1"], and a wait on ["m1"] still answers [None]. *)
Example wait_selection_after_delivery :
  fst (handle_callback "m1:a" world_m1) =
    Return (Some (mkSelection "a" "A" "m1" ["a"] None)) /\
  wait_selection (Some "m1") 50 true world_m1 = (Return None, world_m1).
Proof. split; reflexivity. Qed.

(** ** Presentation failures *)




(** ** Construction *)

(** C9 (as amended): constructing a menu with [max_per_row = 0] returns the
    menu; nothing is checked.  The fault shows only when the keyboard of
    that menu is laid out, as a [ZeroDivisionError], and only if the menu
    has at least one option. *)
Theorem zero_max_per_row_fails_at_layout_only
    (q : string) (opts : list ButtonOption) (w : World) :
  exists menu,
    fst (ButtonMenu_init q opts 0 w) = Return menu /\
    question menu = q /\ options menu = opts /\ max_per_row menu = 0 /\
    _generate_inline_keyboard menu =
      match opts with
      | [] => Return []
      | _ :: _ => Raise ZeroDivisionError
      end.
Proof.
  eexists. split; [reflexivity|]. repeat split.
  destruct opts; reflexivity.
Qed.

(** C9 (as stated) fails: the constructor returns a menu with
    [max_per_row = 0], and the error appears one step later, in the
    layout. *)
Lemma zero_max_per_row_constructs :
  fst (ButtonMenu_init "Q" [mkButtonOption "A" "a" None] 0 empty_world) =
    Return (mkButtonMenu "Q" [mkButtonOption "A" "a" None] 0 "u0") /\
  _generate_inline_keyboard (mkButtonMenu "Q" [mkButtonOption "A" "a" None] 0 "u0") =
    Raise ZeroDivisionError.
Proof. split; reflexivity. Qed.

(** ** Keyboard layout *)

Lemma succ_mod (i m : Z) :
  0 <= i -> 1 <= m ->
  (i + 1) mod m = if i mod m + 1 =? m then 0 else i mod m + 1.
Proof.
  intros Hi Hm.
  pose proof (Z.mod_pos_bound i m ltac:(lia)) as Hr.
  pose proof (Z.div_mod i m ltac:(lia)) as Hd.
  destruct (Z.eqb_spec (i mod m + 1) m) as [E|E].
  - replace (i + 1) with ((i / m + 1) * m) by lia. apply Z.mod_mul. lia.
  - symmetry. apply (Z.mod_unique (i + 1) m (i / m)); lia.
Qed.

(** Loop invariant: the closed rows are full, the open row holds
    [i mod max_per_row] cells, and closed rows followed by the open row list
    the cells of the options seen so far. *)
Lemma keyboard_loop_invariant (menu : ButtonMenu) (opts : list ButtonOption) :
  1 <= max_per_row menu ->
  forall i keyboard row,
    0 <= i ->
    Z.of_nat (length row) = i mod max_per_row menu ->
    Forall (fun r => Z.of_nat (length r) = max_per_row menu) keyboard ->
    exists keyboard' row',
      keyboard_loop menu i opts keyboard row = Return (keyboard', row') /\
      concat keyboard' ++ row' =
        concat keyboard ++ row ++
          map (fun o => mkButton (text o) (address_token (menu_id menu) (callback o)))
              opts /\
      Forall (fun r => Z.of_nat (length r) = max_per_row menu) keyboard' /\
      Z.of_nat (length row') = (i + Z.of_nat (length opts)) mod max_per_row menu.
Proof.
  intros Hm. induction opts as [|option rest IH]; intros i keyboard row Hi Hrow Hkb.
  - exists keyboard, row. simpl. rewrite app_nil_r, Z.add_0_r. auto.
  - simpl keyboard_loop.
    destruct (Z.eqb_spec (max_per_row menu) 0) as [E|_]; [lia|].
    pose proof (succ_mod i _ Hi Hm) as Hsucc.
    set (cell := mkButton (text option)
                   (address_token (menu_id menu) (callback option))) in *.
    assert (Hlen : Z.of_nat (length (row ++ [cell])) = i mod max_per_row menu + 1).
    { rewrite length_app. simpl. lia. }
    destruct (Z.eqb_spec ((i + 1) mod max_per_row menu) 0) as [Hz|Hnz].
    + destruct (Z.eqb_spec (i mod max_per_row menu + 1) (max_per_row menu))
        as [Hfull|Hpart]; [|lia].
      destruct (IH (i + 1) (keyboard ++ [row ++ [cell]]) []) as (kb' & row' & H1 & H2 & H3 & H4).
      * lia.
      * simpl. lia.
      * apply Forall_app. split; [exact Hkb|]. constructor; [lia|constructor].
      * exists kb', row'. split; [exact H1|]. split; [|split; [exact H3|]].
        -- rewrite H2, concat_app. simpl. rewrite !app_nil_r, <- !app_assoc.
           reflexivity.
        -- rewrite H4. f_equal. simpl length. lia.
    + destruct (Z.eqb_spec (i mod max_per_row menu + 1) (max_per_row menu))
        as [Hfull|Hpart]; [lia|].
      destruct (IH (i + 1) keyboard (row ++ [cell])) as (kb' & row' & H1 & H2 & H3 & H4).
      * lia.
      * lia.
      * exact Hkb.
      * exists kb', row'. split; [exact H1|]. split; [|split; [exact H3|]].
        -- rewrite H2, <- !app_assoc. reflexivity.
        -- rewrite H4. f_equal. simpl length. lia.
Qed.

(** C4: for a menu with [max_per_row >= 1] the layout succeeds; read row
    by row it lists, in option order, one cell per option with the option's
    text and the token [menu_id + ":" + callback]; every row but the last
    has exactly [max_per_row] cells, and the last has
    [len(options) mod max_per_row] cells, or [max_per_row] when that is
    zero. *)
Theorem _generate_inline_keyboard_grid (menu : ButtonMenu) :
  1 <= max_per_row menu ->
  exists keyboard,
    _generate_inline_keyboard menu = Return keyboard /\
    concat keyboard =
      map (fun o => mkButton (text o) (address_token (menu_id menu) (callback o)))
          (options menu) /\
    (forall j row, keyboard !! j = Some row -> (S j < length keyboard)%nat ->
       Z.of_nat (length row) = max_per_row menu) /\
    (forall row, last keyboard = Some row ->
       Z.of_nat (length row) =
         if Z.of_nat (length (options menu)) mod max_per_row menu =? 0
         then max_per_row menu
         else Z.of_nat (length (options menu)) mod max_per_row menu).
Proof.
  intros Hm. unfold _generate_inline_keyboard.
  destruct (keyboard_loop_invariant menu (options menu) Hm 0 [] [])
    as (kb & row & Hloop & Hcat & Hrows & Hlast); [lia|reflexivity|constructor|].
  rewrite Hloop. simpl in Hcat. rewrite Z.add_0_l in Hlast.
  destruct row as [|cell row].
  - exists kb. rewrite app_nil_r in Hcat. split; [reflexivity|].
    split; [exact Hcat|]. split.
    + intros j r Hj _. exact (Forall_lookup_1 _ _ _ _ Hrows Hj).
    + intros r Hr. rewrite <- Hlast. simpl.
      apply last_Some_elem_of in Hr.
      rewrite Forall_forall in Hrows. apply Hrows. exact Hr.
  - exists (kb ++ [cell :: row]). split; [reflexivity|]. split; [|split].
    + rewrite concat_app. simpl. rewrite app_nil_r. exact Hcat.
    + intros j r Hj Hlt. rewrite length_app in Hlt. simpl in Hlt.
      rewrite lookup_app_l in Hj by lia.
      exact (Forall_lookup_1 _ _ _ _ Hrows Hj).
    + intros r Hr. rewrite last_snoc in Hr. injection Hr as <-.
      rewrite <- Hlast.
      destruct (Z.eqb_spec (Z.of_nat (length (cell :: row))) 0) as [E|_];
        [simpl in E; lia|reflexivity].
Qed.

Lemma _generate_inline_keyboard_grid_witness :
  exists keyboard,
    _generate_inline_keyboard menu_m1 = Return keyboard /\
    concat keyboard = [mkButton "A" "m1:a"; mkButton "B" "m1:b"] /\
    (forall j row, keyboard !! j = Some row -> (S j < length keyboard)%nat ->
       Z.of_nat (length row) = 2) /\
    (forall row, last keyboard = Some row -> Z.of_nat (length row) = 2).
Proof.
  apply (_generate_inline_keyboard_grid menu_m1). simpl. lia.
Defined.

(** ** Serialization *)

Lemma dict_find_get {A} (key : string) (found : value -> A) (missing : A)
    (d : list (string * value)) :
  dict_find key found missing d =
    match dict_get key d with
    | Some v => found v
    | None => missing
    end.
Proof.
  unfold dict_get. induction d as [|[k v] d IH]; simpl; [reflexivity|].
  destruct (String.eqb k key); [reflexivity|exact IH].
Qed.

(** The two deserializers on a dict, with every field access written as a
    [dict_get]. *)
Lemma ButtonMenu_from_dict_dict (d : list (string * value)) :
  ButtonMenu_from_dict (VDict d) =
    (options <-
       match dict_get "options" d with
       | Some (VList l) => mapM ButtonOption_from_dict l
       | Some (VStr "") => ret []
       | Some (VDict []) => ret []
       | Some _ => raise TypeError
       | None => ret []
       end ;;
     question <- (v <- dict_index "question" d ;; as_str v) ;;
     max_per_row <-
       match dict_get "max_per_row" d with
       | Some v => as_int v
       | None => ret 2
       end ;;
     menu <- ButtonMenu_init question options max_per_row ;;
     match dict_get "menu_id" d with
     | Some v => menu_id <- as_str v ;; ret (set_menu_id menu menu_id)
     | None => ret menu
     end).
Proof.
  simpl. rewrite dict_find_get.
  destruct (dict_get "options" d) as [[| | |[|]|? |[|]]|]; reflexivity.
Qed.

Lemma ButtonOption_from_dict_dict (d : list (string * value)) :
  ButtonOption_from_dict (VDict d) =
    (sub_menu <-
       match dict_get "sub_menu" d with
       | Some v => m <- ButtonMenu_from_dict v ;; ret (Some m)
       | None => ret None
       end ;;
     text <- (v <- dict_index "text" d ;; as_str v) ;;
     callback <- (v <- dict_index "callback" d ;; as_str v) ;;
     ret (mkButtonOption text callback sub_menu)).
Proof. simpl. rewrite dict_find_get. reflexivity. Qed.

Lemma mapM_roundtrip (opts : list ButtonOption) :
  Forall (fun o => forall w, exists w',
            ButtonOption_from_dict (ButtonOption_to_dict o) w = (Return o, w')) opts ->
  forall w, exists w',
    mapM ButtonOption_from_dict (List.map ButtonOption_to_dict opts) w
      = (Return opts, w').
Proof.
  induction 1 as [|o opts Ho _ IH]; intros w; simpl.
  - eexists. reflexivity.
  - unfold bind. destruct (Ho w) as [w1 ->]. destruct (IH w1) as [w2 ->].
    eexists. reflexivity.
Qed.

Lemma from_dict_to_dict :
  (forall m w, exists w',
      ButtonMenu_from_dict (ButtonMenu_to_dict m) w = (Return m, w')) /\
  (forall o w, exists w',
      ButtonOption_from_dict (ButtonOption_to_dict o) w = (Return o, w')).
Proof.
  set (P := fun m => forall w, exists w',
              ButtonMenu_from_dict (ButtonMenu_to_dict m) w = (Return m, w')).
  set (Q := fun o => forall w, exists w',
              ButtonOption_from_dict (ButtonOption_to_dict o) w = (Return o, w')).
  assert (Hmenu : forall q opts mpr i, Forall Q opts -> P (mkButtonMenu q opts mpr i)).
  { intros q opts mpr i Hopts w.
    change (ButtonMenu_to_dict (mkButtonMenu q opts mpr i))
      with (VDict [("question", VStr q);
                   ("options", VList (List.map ButtonOption_to_dict opts));
                   ("max_per_row", VInt mpr); ("menu_id", VStr i)]).
    rewrite ButtonMenu_from_dict_dict.
    change (dict_get "options" _)
      with (Some (VList (List.map ButtonOption_to_dict opts))).
    change (dict_index "question" _) with (@ret value (VStr q)).
    change (dict_get "max_per_row" _) with (Some (VInt mpr)).
    change (dict_get "menu_id" _) with (Some (VStr i)).
    unfold bind. destruct (mapM_roundtrip opts Hopts w) as [w1 ->].
    simpl. eexists. reflexivity. }
  assert (Hleaf : forall t c, Q (mkButtonOption t c None)).
  { intros t c w. eexists. reflexivity. }
  assert (Hsub : forall t c m, P m -> Q (mkButtonOption t c (Some m))).
  { intros t c m IH w.
    change (ButtonOption_to_dict (mkButtonOption t c (Some m)))
      with (VDict [("text", VStr t); ("callback", VStr c);
                   ("sub_menu", ButtonMenu_to_dict m)]).
    rewrite ButtonOption_from_dict_dict.
    change (dict_get "sub_menu" _) with (Some (ButtonMenu_to_dict m)).
    change (dict_index "text" _) with (@ret value (VStr t)).
    change (dict_index "callback" _) with (@ret value (VStr c)).
    unfold bind. destruct (IH w) as [w1 ->]. simpl. eexists. reflexivity. }
  split.
  - exact (ButtonMenu_tree_ind P Q Hmenu Hleaf Hsub).
  - exact (ButtonOption_tree_ind P Q Hmenu Hleaf Hsub).
Qed.

(** C3: deserializing the document that [to_dict] produces from a menu
    tree returns that tree: same question, same options in the same order
    with their texts, callbacks and nested sub-menus, same [max_per_row]
    and same [menu_id]. *)
Theorem ButtonMenu_roundtrip (t : ButtonMenu) (w : World) :
  fst (ButtonMenu_from_dict (ButtonMenu_to_dict t) w) = Return t.
Proof.
  destruct (proj1 from_dict_to_dict t w) as [w' ->]. reflexivity.
Qed.

(** ** Deserializing documents *)

Lemma dict_has_get (key : string) (d : list (string * value)) :
  dict_has key d = match dict_get key d with Some _ => true | None => false end.
Proof. unfold dict_has. apply dict_find_get. Qed.

Lemma menu_document_dict (d : list (string * value)) :
  menu_document (VDict d) =
    match dict_get "question" d with Some v => is_str v | None => true end
    && match dict_get "options" d with
       | Some (VList l) => forallb option_document l
       | Some _ => false
       | None => true
       end
    && match dict_get "max_per_row" d with Some v => is_int v | None => true end
    && match dict_get "menu_id" d with Some v => is_str v | None => true end.
Proof.
  simpl. rewrite !dict_find_get.
  destruct (dict_get "options" d) as [[]|]; reflexivity.
Qed.

Lemma option_document_dict (d : list (string * value)) :
  option_document (VDict d) =
    match dict_get "text" d with Some v => is_str v | None => true end
    && match dict_get "callback" d with Some v => is_str v | None => true end
    && match dict_get "sub_menu" d with Some v => menu_document v | None => true end.
Proof. simpl. rewrite !dict_find_get. reflexivity. Qed.

Lemma menu_complete_dict (d : list (string * value)) :
  menu_complete (VDict d) =
    dict_has "question" d
    && match dict_get "options" d with
       | Some (VList l) => forallb option_complete l
       | _ => true
       end.
Proof.
  simpl. rewrite !dict_find_get.
  destruct (dict_get "options" d) as [[]|]; reflexivity.
Qed.

Lemma option_complete_dict (d : list (string * value)) :
  option_complete (VDict d) =
    dict_has "text" d && dict_has "callback" d
    && match dict_get "sub_menu" d with Some v => menu_complete v | None => true end.
Proof. simpl. rewrite !dict_find_get. reflexivity. Qed.

Lemma dict_get_In (key : string) (d : list (string * value)) (v : value) :
  dict_get key d = Some v -> In (key, v) d.
Proof.
  unfold dict_get. induction d as [|[k x] d IH]; simpl; [discriminate|].
  destruct (String.eqb_spec k key) as [->|_].
  - intros [= ->]. left. reflexivity.
  - intros H. right. exact (IH H).
Qed.











(** * Further properties of the module *)

(** ** Looking options up *)

Lemma find_option_scan (opts : list ButtonOption) (q : string) (mpr : Z)
    (i c : string) :
  match find_option (mkButtonMenu q opts mpr i) c with
  | Some o =>
      exists pre post,
        opts = pre ++ o :: post /\ callback o = c /\
        Forall (fun x => callback x <> c) pre
  | None => Forall (fun x => callback x <> c) opts
  end.
Proof.
  unfold find_option. simpl options.
  induction opts as [|[t k s] opts IH].
  - constructor.
  - cbn iota beta. destruct (String.eqb_spec k c) as [->|Hne].
    + exists [], opts. repeat split. constructor.
    + match goal with
      | |- match ?f opts with _ => _ end => destruct (f opts) as [o|]
      end.
      * destruct IH as (pre & post & -> & Hc & Hpre).
        exists (mkButtonOption t k s :: pre), post. repeat split; [exact Hc|].
        constructor; [exact Hne|exact Hpre].
      * constructor; [exact Hne|exact IH].
Qed.

(** X1: [find_option] returns the first option, in list order, whose
    callback equals the token: everything before it has another callback;
    it returns [None] exactly when no option has that callback. *)
Theorem find_option_first_match (m : ButtonMenu) (c : string) :
  match find_option m c with
  | Some o =>
      exists pre post,
        options m = pre ++ o :: post /\ callback o = c /\
        Forall (fun x => callback x <> c) pre
  | None => Forall (fun x => callback x <> c) (options m)
  end.
Proof. destruct m as [q opts mpr i]. apply find_option_scan. Qed.

Lemma find_option_of_member (m : ButtonMenu) (o : ButtonOption) :
  In o (options m) ->
  exists o', find_option m (callback o) = Some o' /\ callback o' = callback o.
Proof.
  intros Hin. pose proof (find_option_first_match m (callback o)) as H.
  destruct (find_option m (callback o)) as [o'|].
  - destruct H as (pre & post & _ & Hc & _). eauto.
  - rewrite Forall_forall in H. apply list_elem_of_In in Hin.
    exfalso. exact (H o Hin eq_refl).
Qed.

Lemma find_option_unique (m : ButtonMenu) (o : ButtonOption) :
  NoDup (List.map callback (options m)) ->
  In o (options m) ->
  find_option m (callback o) = Some o.
Proof.
  intros Hnd Hin. pose proof (find_option_first_match m (callback o)) as H.
  destruct (find_option m (callback o)) as [o'|].
  - destruct H as (pre & post & Hopts & Hc & Hpre). f_equal.
    rewrite Hopts in Hnd, Hin. rewrite List.map_app in Hnd. simpl in Hnd.
    apply NoDup_app in Hnd as (_ & Hdisj & Hnd).
    apply NoDup_cons in Hnd as [Hnotin _].
    apply List.in_app_or in Hin as [Hin|[Hin|Hin]].
    + apply list_elem_of_In in Hin. rewrite Forall_forall in Hpre.
      exfalso. exact (Hpre o Hin eq_refl).
    + exact Hin.
    + exfalso. apply Hnotin. rewrite Hc. apply list_elem_of_In.
      apply List.in_map. exact Hin.
  - rewrite Forall_forall in H. apply list_elem_of_In in Hin.
    exfalso. exact (H o Hin eq_refl).
Qed.

Lemma get_all_callbacks_both :
  (forall m c,
     In c (get_all_callbacks m) <->
     exists o, option_in_tree o m /\ callback o = c) /\
  (forall p c,
     In c (option_callbacks p) <->
     callback p = c \/
     exists s o, sub_menu p = Some s /\ option_in_tree o s /\ callback o = c).
Proof.
  set (P := fun m => forall c,
              In c (get_all_callbacks m) <->
              exists o, option_in_tree o m /\ callback o = c).
  set (Q := fun p => forall c,
              In c (option_callbacks p) <->
              callback p = c \/
              exists s o, sub_menu p = Some s /\ option_in_tree o s /\ callback o = c).
  assert (Hmenu : forall q opts mpr i, Forall Q opts -> P (mkButtonMenu q opts mpr i)).
  { intros q opts mpr i Hopts c. simpl get_all_callbacks.
    rewrite List.in_concat. rewrite List.Forall_forall in Hopts. split.
    - intros (l & Hl & Hc). apply List.in_map_iff in Hl as (p & <- & Hp).
      apply (Hopts p Hp) in Hc as [Hc|(s & o & Hs & Ho & Hc)].
      + exists p. split; [apply in_tree_here; exact Hp|exact Hc].
      + exists o. split; [|exact Hc]. eapply in_tree_below; eassumption.
    - intros (o & Ho & Hc). inversion Ho as [o0 m0 Hin|o0 p s m0 Hin Hs Hsub]; subst.
      + exists (option_callbacks o). split; [apply List.in_map; exact Hin|].
        apply (Hopts o Hin). left. reflexivity.
      + exists (option_callbacks p). split; [apply List.in_map; exact Hin|].
        apply (Hopts p Hin). right. eauto. }
  assert (Hleaf : forall t k, Q (mkButtonOption t k None)).
  { intros t k c. simpl. split.
    - intros [H|[]]. left. exact H.
    - intros [H|(s & o & Hs & _)]; [left; exact H|discriminate]. }
  assert (Hsub : forall t k m, P m -> Q (mkButtonOption t k (Some m))).
  { intros t k m IH c. simpl. rewrite (IH c). split.
    - intros [H|(o & Ho & Hc)]; [left; exact H|]. right. exists m, o. auto.
    - intros [H|(s & o & [= <-] & Ho & Hc)]; [left; exact H|]. right. eauto. }
  split.
  - exact (ButtonMenu_tree_ind P Q Hmenu Hleaf Hsub).
  - exact (ButtonOption_tree_ind P Q Hmenu Hleaf Hsub).
Qed.

(** X2: [get_all_callbacks] lists exactly the callbacks of the options found
    anywhere in the tree: those of the menu itself and those of every
    sub-menu nested below them. *)
Theorem get_all_callbacks_members (m : ButtonMenu) (c : string) :
  In c (get_all_callbacks m) <->
  exists o, option_in_tree o m /\ callback o = c.
Proof. apply (proj1 get_all_callbacks_both). Qed.

(** ** Address tokens *)

(** X3: two address tokens built from identifiers that do not contain the
    separator are equal only if both the identifiers and the callbacks are
    equal; the callbacks may contain the separator. *)
Theorem address_token_injective (id1 c1 id2 c2 : string) :
  contains ":" id1 = false ->
  contains ":" id2 = false ->
  address_token id1 c1 = address_token id2 c2 ->
  id1 = id2 /\ c1 = c2.
Proof.
  intros H1 H2 Heq.
  pose proof (split_once_token id1 c1 H1) as S1.
  pose proof (split_once_token id2 c2 H2) as S2.
  rewrite Heq, S2 in S1. injection S1 as -> ->. split; reflexivity.
Qed.

Lemma address_token_injective_witness :
  "m1" = "m1" /\ "a:b" = "a:b".
Proof.
  apply (address_token_injective "m1" "a:b" "m1" "a:b"); reflexivity.
Defined.

(** X4: a selection returned by [handle_callback] accounts for the whole
    token: the token is the selection's menu id, the separator and the
    selection's callback; the menu id is separator-free and registered; the
    text and the sub-menu are those of the first option of that menu with
    that callback; and the path is the callback alone. *)
Theorem handle_callback_selection_inv (w : World) (tok : string) (sel : Selection) :
  fst (handle_callback tok w) = Return (Some sel) ->
  tok = address_token (sel_menu_id sel) (sel_callback sel) /\
  contains ":" (sel_menu_id sel) = false /\
  sel_path sel = [sel_callback sel] /\
  exists menu o,
    _menu_registry w !! sel_menu_id sel = Some menu /\
    find_option menu (sel_callback sel) = Some o /\
    sel_text sel = text o /\ sel_sub_menu sel = sub_menu o.
Proof.
  intros H.
  destruct (split_once ":" tok) as [|id [|c [|x l]]] eqn:Hs;
    try (unfold handle_callback, try_except in H; rewrite Hs in H;
         simpl in H; discriminate H).
  rewrite (handle_callback_split _ _ _ w Hs) in H. simpl in H.
  destruct (_menu_registry w !! id) as [menu|] eqn:Hreg; [|discriminate H].
  destruct (find_option menu c) as [o|] eqn:Hfind; [|discriminate H].
  injection H as <-. simpl.
  destruct (split_once_two _ _ _ _ Hs) as [-> Hsep].
  repeat split; try assumption. exists menu, o. auto.
Qed.

Lemma handle_callback_selection_inv_witness :
  "m1:b" = address_token "m1" "b" /\
  contains ":" "m1" = false /\
  ["b"] = ["b"] /\
  exists menu o,
    _menu_registry world_m1 !! "m1" = Some menu /\
    find_option menu "b" = Some o /\
    "B" = text o /\ Some menu_s1 = sub_menu o.
Proof.
  apply (handle_callback_selection_inv world_m1 "m1:b"
           (mkSelection "b" "B" "m1" ["b"] (Some menu_s1))).
  reflexivity.
Defined.

(** ** More on the keyboard layout *)

Lemma keyboard_loop_cells (menu : ButtonMenu) (opts : list ButtonOption) :
  forall i keyboard row keyboard' row',
    keyboard_loop menu i opts keyboard row = Return (keyboard', row') ->
    concat keyboard' ++ row' =
      concat keyboard ++ row ++ List.map (button_of menu) opts.
Proof.
  induction opts as [|o rest IH]; intros i keyboard row keyboard' row' H;
    simpl in H.
  - injection H as <- <-. simpl. rewrite app_nil_r. reflexivity.
  - destruct (max_per_row menu =? 0); [discriminate H|].
    destruct ((i + 1) mod max_per_row menu =? 0); apply IH in H; rewrite H.
    + rewrite concat_app. simpl. rewrite !app_nil_r, <- !app_assoc. reflexivity.
    + rewrite <- !app_assoc. reflexivity.
Qed.

Lemma _generate_inline_keyboard_cells (menu : ButtonMenu)
    (keyboard : list (list Button)) :
  _generate_inline_keyboard menu = Return keyboard ->
  concat keyboard = List.map (button_of menu) (options menu).
Proof.
  unfold _generate_inline_keyboard.
  destruct (keyboard_loop menu 0 (options menu) [] []) as [[kb row]|e|] eqn:Hloop;
    try discriminate.
  apply keyboard_loop_cells in Hloop. simpl in Hloop.
  destruct row as [|b row]; intros [= <-].
  - rewrite app_nil_r in Hloop. exact Hloop.
  - rewrite concat_app. simpl. rewrite app_nil_r. exact Hloop.
Qed.

(** X5: every button that [show_menu] lays out resolves.  If the layout of
    a menu with a separator-free identifier succeeds, then for each cell of
    the keyboard, [handle_callback] on the cell's [callback_data] in the
    world left by [show_menu] returns a selection for that menu and for the
    callback of the option the cell was made from; text and sub-menu are
    those of the first option with that callback, which is the cell's own
    option when the callbacks of the menu are pairwise distinct. *)
Theorem presented_button_resolves
    (w : World) (menu : ButtonMenu) (chat : option string) (use_openclaw : bool)
    (keyboard : list (list Button)) (row : list Button) (b : Button) :
  _generate_inline_keyboard menu = Return keyboard ->
  contains ":" (menu_id menu) = false ->
  In row keyboard -> In b row ->
  let w' := snd (show_menu menu chat use_openclaw w) in
  exists o first,
    In o (options menu) /\ b = button_of menu o /\
    find_option menu (callback o) = Some first /\
    handle_callback (callback_data b) w' =
      (Return (Some (mkSelection (callback o) (text first) (menu_id menu)
                                 [callback o] (sub_menu first))), w') /\
    (NoDup (List.map callback (options menu)) -> first = o).
Proof.
  intros Hkb Hsep Hrow Hb w'.
  assert (Hcell : In b (List.map (button_of menu) (options menu))).
  { rewrite <- (_generate_inline_keyboard_cells menu keyboard Hkb).
    apply List.in_concat. eauto. }
  apply List.in_map_iff in Hcell as (o & <- & Ho).
  destruct (find_option_of_member menu o Ho) as (first & Hfind & _).
  exists o, first. split; [exact Ho|]. split; [reflexivity|].
  split; [exact Hfind|]. split.
  - simpl callback_data.
    rewrite (handle_callback_split _ _ _ w' (split_once_token _ (callback o) Hsep)).
    unfold w'. rewrite show_menu_registry, lookup_insert_eq, Hfind. reflexivity.
  - intros Hnd. rewrite (find_option_unique menu o Hnd Ho) in Hfind.
    congruence.
Qed.

Lemma presented_button_resolves_witness :
  exists o first,
    In o (options menu_m1) /\ mkButton "B" "m1:b" = button_of menu_m1 o /\
    find_option menu_m1 (callback o) = Some first /\
    handle_callback "m1:b" world_m1 =
      (Return (Some (mkSelection (callback o) (text first) "m1"
                                 [callback o] (sub_menu first))), world_m1) /\
    (NoDup (List.map callback (options menu_m1)) -> first = o).
Proof.
  apply (presented_button_resolves empty_world menu_m1 None true
           [[mkButton "A" "m1:a"; mkButton "B" "m1:b"]]
           [mkButton "A" "m1:a"; mkButton "B" "m1:b"] (mkButton "B" "m1:b")).
  - reflexivity.
  - reflexivity.
  - left. reflexivity.
  - right. left. reflexivity.
Defined.

Lemma keyboard_loop_opp (m1 m2 : ButtonMenu) (opts : list ButtonOption) :
  menu_id m2 = menu_id m1 ->
  max_per_row m2 = - max_per_row m1 ->
  forall i keyboard row,
    keyboard_loop m2 i opts keyboard row = keyboard_loop m1 i opts keyboard row.
Proof.
  intros Hid Hm. induction opts as [|o rest IH]; intros i keyboard row; simpl.
  - reflexivity.
  - rewrite Hid, Hm.
    destruct (Z.eqb_spec (max_per_row m1) 0) as [E|E].
    + rewrite E. reflexivity.
    + destruct (Z.eqb_spec (- max_per_row m1) 0) as [E'|_]; [lia|].
      assert (Hmod : ((i + 1) mod - max_per_row m1 =? 0)
                     = ((i + 1) mod max_per_row m1 =? 0)).
      { destruct (Z.eqb_spec ((i + 1) mod max_per_row m1) 0) as [Hz|Hnz].
        - apply Z.eqb_eq. apply Z.mod_divide; [lia|].
          apply Z.divide_opp_l. apply Z.mod_divide; [exact E|exact Hz].
        - apply Z.eqb_neq. intros Hz. apply Hnz.
          apply Z.mod_divide; [exact E|].
          apply Z.divide_opp_l. apply Z.mod_divide; [lia|exact Hz]. }
      rewrite Hmod. destruct ((i + 1) mod max_per_row m1 =? 0); apply IH.
Qed.

(** X6: the layout depends on [max_per_row] only through its absolute
    value.  A negative [max_per_row] is not rejected: the row test
    [(i + 1) % max_per_row == 0] holds for the same indices as for
    [- max_per_row], so the two menus get the same grid. *)
Theorem _generate_inline_keyboard_opp (menu : ButtonMenu) :
  _generate_inline_keyboard (set_max_per_row menu (- max_per_row menu)) =
    _generate_inline_keyboard menu.
Proof.
  unfold _generate_inline_keyboard.
  destruct menu as [q opts mpr i]. simpl options.
  rewrite (keyboard_loop_opp (mkButtonMenu q opts mpr i)
             (set_max_per_row (mkButtonMenu q opts mpr i) (- mpr)) opts);
    reflexivity.
Qed.

Example _generate_inline_keyboard_minus_two :
  _generate_inline_keyboard menu_neg =
    Return [[mkButton "A" "n1:a"; mkButton "B" "n1:b"]; [mkButton "C" "n1:c"]].
Proof. reflexivity. Qed.

Lemma succ_div (i m : Z) :
  0 <= i -> 1 <= m ->
  (i + 1) / m = if (i + 1) mod m =? 0 then i / m + 1 else i / m.
Proof.
  intros Hi Hm.
  pose proof (Z.mod_pos_bound i m ltac:(lia)) as Hr.
  pose proof (Z.div_mod i m ltac:(lia)) as Hd.
  pose proof (Z.div_mod (i + 1) m ltac:(lia)) as Hd'.
  pose proof (succ_mod i m Hi Hm) as Hs.
  destruct (Z.eqb_spec (i mod m + 1) m) as [Hfull|Hpart]; rewrite Hs in *.
  - simpl. apply (Z.mul_cancel_l _ _ m); lia.
  - destruct (Z.eqb_spec (i mod m + 1) 0) as [E|_]; [lia|].
    apply (Z.mul_cancel_l _ _ m); lia.
Qed.

Lemma keyboard_loop_rows (menu : ButtonMenu) (opts : list ButtonOption) :
  1 <= max_per_row menu ->
  forall i keyboard row keyboard' row',
    0 <= i ->
    Z.of_nat (length keyboard) = i / max_per_row menu ->
    keyboard_loop menu i opts keyboard row = Return (keyboard', row') ->
    Z.of_nat (length keyboard') = (i + Z.of_nat (length opts)) / max_per_row menu.
Proof.
  intros Hm. induction opts as [|o rest IH];
    intros i keyboard row keyboard' row' Hi Hkb H; simpl in H.
  - injection H as <- <-. simpl. rewrite Z.add_0_r. exact Hkb.
  - destruct (Z.eqb_spec (max_per_row menu) 0) as [E|_]; [lia|].
    pose proof (succ_div i _ Hi Hm) as Hdiv.
    replace (i + Z.of_nat (length (o :: rest)))
      with (i + 1 + Z.of_nat (length rest)) by (simpl length; lia).
    destruct ((i + 1) mod max_per_row menu =? 0);
      apply IH in H; try exact H; try lia.
    rewrite length_app. simpl. lia.
Qed.

(** X7: for a menu with [max_per_row >= 1] the keyboard has
    [ceil(len(options) / max_per_row)] rows, written
    [(len(options) + max_per_row - 1) / max_per_row], and none of them is
    empty; in particular a menu without options gets the empty keyboard. *)
Theorem _generate_inline_keyboard_row_count (menu : ButtonMenu) :
  1 <= max_per_row menu ->
  exists keyboard,
    _generate_inline_keyboard menu = Return keyboard /\
    Z.of_nat (length keyboard) =
      (Z.of_nat (length (options menu)) + max_per_row menu - 1) / max_per_row menu /\
    Forall (fun row => row <> []) keyboard.
Proof.
  intros Hm. unfold _generate_inline_keyboard.
  destruct (keyboard_loop_invariant menu (options menu) Hm 0 [] [])
    as (kb & row & Hloop & _ & Hfull & Hlast); [lia|reflexivity|constructor|].
  pose proof (keyboard_loop_rows menu (options menu) Hm 0 [] [] kb row
                ltac:(lia) eq_refl Hloop) as Hlen.
  rewrite Z.add_0_l in Hlast, Hlen. rewrite Hloop.
  set (n := Z.of_nat (length (options menu))) in *.
  set (m := max_per_row menu) in *.
  pose proof (Z.div_mod n m ltac:(lia)) as Hd.
  pose proof (Z.mod_pos_bound n m ltac:(lia)) as Hr.
  assert (Hne : Forall (fun r : list Button => r <> []) kb).
  { eapply Forall_impl; [exact Hfull|]. intros r Hr' ->. simpl in Hr'. lia. }
  destruct row as [|b row].
  - exists kb. split; [reflexivity|]. split; [|exact Hne].
    rewrite Hlen. simpl in Hlast.
    apply (Z.div_unique (n + m - 1) m (n / m) (m - 1)); lia.
  - exists (kb ++ [b :: row]). split; [reflexivity|]. split.
    + rewrite length_app, Nat2Z.inj_add, Hlen. simpl length.
      change (Z.of_nat 1) with 1.
      assert (1 <= n mod m) by (rewrite <- Hlast; simpl length; lia).
      apply (Z.div_unique (n + m - 1) m (n / m + 1) (n mod m - 1)); lia.
    + apply Forall_app. split; [exact Hne|]. constructor; [discriminate|constructor].
Qed.

Lemma _generate_inline_keyboard_row_count_witness :
  exists keyboard,
    _generate_inline_keyboard menu_m1 = Return keyboard /\
    Z.of_nat (length keyboard) = 1 /\
    Forall (fun row => row <> []) keyboard.
Proof.
  apply (_generate_inline_keyboard_row_count menu_m1). simpl. lia.
Defined.

(** ** Presenting and clearing together *)

(** X8: clearing a menu right after presenting it removes what the
    presentation registered, and whatever was registered under that
    identifier before: the registry is the earlier one without that key, so
    it is the earlier registry itself when the identifier was fresh. *)
Theorem clear_menu_after_show_menu
    (w : World) (menu : ButtonMenu) (chat : option string) (use_openclaw : bool) :
  let w' := snd (clear_menu (menu_id menu)
                   (snd (show_menu menu chat use_openclaw w))) in
  _menu_registry w' = delete (menu_id menu) (_menu_registry w) /\
  (_menu_registry w !! menu_id menu = None -> _menu_registry w' = _menu_registry w).
Proof.
  assert (H : _menu_registry
                (snd (clear_menu (menu_id menu)
                        (snd (show_menu menu chat use_openclaw w))))
              = delete (menu_id menu) (_menu_registry w)).
  { unfold clear_menu. rewrite show_menu_registry.
    destruct (decide (is_Some (<[menu_id menu:=menu]> (_menu_registry w)
                                 !! menu_id menu))) as [_|Hno].
    - simpl. apply delete_insert_eq.
    - exfalso. apply Hno. rewrite lookup_insert_eq. eauto. }
  split; [exact H|]. intros Hfresh. cbv zeta. rewrite H.
  apply delete_id. exact Hfresh.
Qed.

Lemma clear_menu_after_show_menu_witness :
  _menu_registry (snd (clear_menu "m1" world_m1)) = _menu_registry empty_world.
Proof.
  apply (proj2 (clear_menu_after_show_menu empty_world menu_m1 None true)).
  reflexivity.
Defined.

(** X9: after [clear_all_menus] both dictionaries are empty and no address
    token resolves, whatever was registered before. *)
Theorem clear_all_menus_unregisters (w : World) (tok : string) :
  let w' := snd (clear_all_menus w) in
  fst (clear_all_menus w) = Return tt /\
  _menu_registry w' = ∅ /\
  _pending_selections w' = ∅ /\
  handle_callback tok w' = (Return None, w').
Proof.
  cbv zeta. repeat split.
  destruct (split_once ":" tok) as [|id [|c [|x l]]] eqn:Hs.
  3: { rewrite (handle_callback_split _ _ _ _ Hs). simpl.
       rewrite lookup_empty. reflexivity. }
  all: unfold handle_callback, try_except; rewrite Hs; reflexivity.
Qed.

Lemma _generate_inline_keyboard_zero (menu : ButtonMenu) :
  max_per_row menu = 0 -> options menu <> [] ->
  _generate_inline_keyboard menu = Raise ZeroDivisionError.
Proof.
  intros Hz Hne. unfold _generate_inline_keyboard.
  destruct (options menu) as [|o rest]; [contradiction|].
  simpl. rewrite Hz. reflexivity.
Qed.

(** X10: a menu whose layout fails is registered all the same.  With
    [max_per_row = 0] and at least one option, [show_menu] raises
    [ZeroDivisionError] on either transport, after the registry entry has
    been written; nothing is sent, and the entry stays. *)
Theorem show_menu_zero_max_per_row
    (w : World) (menu : ButtonMenu) (chat : option string) (use_openclaw : bool) :
  max_per_row menu = 0 -> options menu <> [] ->
  show_menu menu chat use_openclaw w =
    (Raise ZeroDivisionError,
     set_registry (<[menu_id menu := menu]> (_menu_registry w)) w).
Proof.
  intros Hz Hne. unfold show_menu, bind, lift. simpl.
  rewrite (_generate_inline_keyboard_zero menu Hz Hne). reflexivity.
Qed.

Lemma show_menu_zero_max_per_row_witness :
  show_menu menu_zero None true empty_world =
    (Raise ZeroDivisionError,
     set_registry (<[ "z0" := menu_zero ]> ∅) empty_world).
Proof.
  apply (show_menu_zero_max_per_row empty_world menu_zero None true).
  - reflexivity.
  - discriminate.
Defined.

(** ** The direct transport with credentials *)

(** X11: with a non-empty bot token configured and a layout that succeeds,
    [show_menu] over the direct transport never raises: it posts to the
    [sendMessage] URL of that token, with the given chat id or, when that
    is [None] or empty, the value of [TELEGRAM_CHAT_ID]; it returns the
    message id when the request succeeds and [None] when anything in the
    request fails. *)
Theorem show_menu_direct_with_token
    (w : World) (menu : ButtonMenu) (chat : option string)
    (keyboard : list (list Button)) (token : string) :
  environ w !! "TELEGRAM_BOT_TOKEN" = Some token ->
  token <> "" ->
  _generate_inline_keyboard menu = Return keyboard ->
  fst (show_menu menu chat false w) =
    Return
      match requests_post w
              ("https://api.telegram.org/bot" +:+ token +:+ "/sendMessage")
              (mkPayload (if truthy chat then chat
                          else environ w !! "TELEGRAM_CHAT_ID")
                         (question menu) keyboard)
      with
      | inr message_id => Some message_id
      | inl _ => None
      end.
Proof.
  intros Htok Hne Hkb. unfold show_menu, bind, lift. simpl. rewrite Hkb.
  unfold _send_via_telegram_api, bind, getenv, try_except, ret, raise. simpl.
  rewrite Htok.
  assert (Ht : truthy (Some token) = true)
    by (destruct token; [contradiction|reflexivity]).
  rewrite Ht. simpl.
  match goal with
  | |- context [requests_post ?a ?b ?c] => destruct (requests_post a b c)
  end; reflexivity.
Qed.

Lemma show_menu_direct_with_token_witness :
  fst (show_menu menu_m1 None false world_token) = Return (Some "42").
Proof.
  apply (show_menu_direct_with_token world_token menu_m1 None
           [[mkButton "A" "m1:a"; mkButton "B" "m1:b"]] "t0k").
  - reflexivity.
  - discriminate.
  - reflexivity.
Defined.

(** ** The confirmation helper *)





(** ** More on documents *)

Lemma only_draws_refl (w : World) : only_draws w w.
Proof. exists (uuid_calls w). split; [lia|]. destruct w. reflexivity. Qed.

Lemma only_draws_step (w1 w2 w3 : World) :
  only_draws w1 w2 -> only_draws w2 w3 -> only_draws w1 w3.
Proof.
  intros (n1 & L1 & ->) (n2 & L2 & ->). exists n2. simpl in L2.
  split; [lia|]. destruct w1. reflexivity.
Qed.

Lemma frame_ret {A} (a : A) : frame (ret a).
Proof. intros w. apply only_draws_refl. Qed.

Lemma frame_raise {A} (e : exn) : frame (@raise A e).
Proof. intros w. apply only_draws_refl. Qed.

Lemma frame_ill_typed {A} : frame (@ill_typed A).
Proof. intros w. apply only_draws_refl. Qed.

Lemma frame_bind {A B} (m : M A) (k : A -> M B) :
  frame m -> (forall a, frame (k a)) -> frame (bind m k).
Proof.
  intros Hm Hk w. unfold bind. specialize (Hm w).
  destruct (m w) as [[a|e|] w1]; simpl in Hm; simpl; try exact Hm.
  eapply only_draws_step; [exact Hm|apply Hk].
Qed.

Lemma frame_uuid8 : frame uuid8.
Proof. intros w. exists (S (uuid_calls w)). split; [lia|reflexivity]. Qed.

Lemma frame_as_str (v : value) : frame (as_str v).
Proof. destruct v; first [apply frame_ret|apply frame_ill_typed]. Qed.

Lemma frame_as_int (v : value) : frame (as_int v).
Proof. destruct v; first [apply frame_ret|apply frame_ill_typed]. Qed.

Lemma frame_dict_index (key : string) (d : list (string * value)) :
  frame (dict_index key d).
Proof.
  unfold dict_index. destruct (dict_get key d);
    [apply frame_ret|apply frame_raise].
Qed.

Lemma frame_mapM {A B} (f : A -> M B) (l : list A) :
  Forall (fun x => frame (f x)) l -> frame (mapM f l).
Proof.
  induction 1 as [|x l Hx _ IH]; simpl.
  - apply frame_ret.
  - apply frame_bind; [exact Hx|]. intros y.
    apply frame_bind; [exact IH|]. intros ys. apply frame_ret.
Qed.

Lemma from_dict_frame (v : value) :
  frame (ButtonMenu_from_dict v) /\
  frame (ButtonOption_from_dict v) /\
  match v with
  | VList l => Forall (fun x => frame (ButtonOption_from_dict x)) l
  | _ => True
  end.
Proof.
  induction v as [| | | |l IH|d IH] using value_tree_ind;
    try (split; [apply frame_raise|split; [apply frame_raise|exact I]]).
  - split; [apply frame_raise|]. split; [apply frame_raise|].
    eapply Forall_impl; [exact IH|]. intros x Hx. apply Hx.
  - assert (Hget : forall key x, dict_get key d = Some x ->
              frame (ButtonMenu_from_dict x) /\
              match x with
              | VList l => Forall (fun x => frame (ButtonOption_from_dict x)) l
              | _ => True
              end).
    { intros key x Hx. apply dict_get_In in Hx.
      rewrite List.Forall_forall in IH. specialize (IH _ Hx). simpl in IH.
      split; apply IH. }
    split; [|split; [|exact I]].
    + rewrite ButtonMenu_from_dict_dict.
      apply frame_bind.
      { destruct (dict_get "options" d) as [[| | |[|]|l|[|]]|] eqn:E;
          try apply frame_ret; try apply frame_raise.
        apply frame_mapM. apply (Hget "options" _ E). }
      intros opts. apply frame_bind.
      { apply frame_bind; [apply frame_dict_index|apply frame_as_str]. }
      intros q. apply frame_bind.
      { destruct (dict_get "max_per_row" d);
          [apply frame_as_int|apply frame_ret]. }
      intros mpr. apply frame_bind.
      { unfold ButtonMenu_init. apply frame_bind; [apply frame_uuid8|].
        intros i. apply frame_ret. }
      intros menu. destruct (dict_get "menu_id" d).
      * apply frame_bind; [apply frame_as_str|]. intros i. apply frame_ret.
      * apply frame_ret.
    + rewrite ButtonOption_from_dict_dict.
      apply frame_bind.
      { destruct (dict_get "sub_menu" d) as [v|] eqn:E; [|apply frame_ret].
        apply frame_bind; [apply (Hget "sub_menu" _ E)|].
        intros m. apply frame_ret. }
      intros sub. apply frame_bind.
      { apply frame_bind; [apply frame_dict_index|apply frame_as_str]. }
      intros t. apply frame_bind.
      { apply frame_bind; [apply frame_dict_index|apply frame_as_str]. }
      intros c. apply frame_ret.
Qed.

(** X13: deserializing never registers anything.  Whatever the document,
    and whether the call returns or raises, [ButtonMenu.from_dict] leaves
    both dictionaries, the environment and the clock as they were; the only
    trace it leaves is the identifiers drawn by the constructor. *)
Theorem ButtonMenu_from_dict_world (data : value) (w : World) :
  let w' := snd (ButtonMenu_from_dict data w) in
  _menu_registry w' = _menu_registry w /\
  _pending_selections w' = _pending_selections w /\
  environ w' = environ w /\
  time_time w' = time_time w /\
  uuid4 w' = uuid4 w /\
  (uuid_calls w <= uuid_calls w')%nat.
Proof.
  cbv zeta. destruct (proj1 (from_dict_frame data) w) as (n & Hn & ->).
  simpl. repeat split. exact Hn.
Qed.

Lemma to_dict_document :
  (forall m, menu_document (ButtonMenu_to_dict m) = true /\
             menu_complete (ButtonMenu_to_dict m) = true) /\
  (forall o, option_document (ButtonOption_to_dict o) = true /\
             option_complete (ButtonOption_to_dict o) = true).
Proof.
  set (P := fun m => menu_document (ButtonMenu_to_dict m) = true /\
                     menu_complete (ButtonMenu_to_dict m) = true).
  set (Q := fun o => option_document (ButtonOption_to_dict o) = true /\
                     option_complete (ButtonOption_to_dict o) = true).
  assert (Hmenu : forall q opts mpr i, Forall Q opts -> P (mkButtonMenu q opts mpr i)).
  { intros q opts mpr i Hopts.
    assert (Hall : forallb option_document (List.map ButtonOption_to_dict opts) = true
                   /\ forallb option_complete (List.map ButtonOption_to_dict opts) = true).
    { induction Hopts as [|o opts [Ho1 Ho2] _ [IH1 IH2]]; simpl; [split; reflexivity|].
      rewrite Ho1, Ho2, IH1, IH2. split; reflexivity. }
    destruct Hall as [H1 H2]. unfold P.
    change (ButtonMenu_to_dict (mkButtonMenu q opts mpr i))
      with (VDict [("question", VStr q);
                   ("options", VList (List.map ButtonOption_to_dict opts));
                   ("max_per_row", VInt mpr); ("menu_id", VStr i)]).
    rewrite menu_document_dict, menu_complete_dict, dict_has_get.
    change (dict_get "options" _)
      with (Some (VList (List.map ButtonOption_to_dict opts))).
    change (dict_get "question" _) with (Some (VStr q)).
    change (dict_get "max_per_row" _) with (Some (VInt mpr)).
    change (dict_get "menu_id" _) with (Some (VStr i)).
    cbv beta iota. rewrite H1, H2. split; reflexivity. }
  assert (Hleaf : forall t c, Q (mkButtonOption t c None)).
  { intros t c. split; reflexivity. }
  assert (Hsub : forall t c m, P m -> Q (mkButtonOption t c (Some m))).
  { intros t c m [H1 H2]. unfold Q.
    change (ButtonOption_to_dict (mkButtonOption t c (Some m)))
      with (VDict [("text", VStr t); ("callback", VStr c);
                   ("sub_menu", ButtonMenu_to_dict m)]).
    rewrite option_document_dict, option_complete_dict, !dict_has_get.
    change (dict_get "sub_menu" _) with (Some (ButtonMenu_to_dict m)).
    change (dict_get "text" _) with (Some (VStr t)).
    change (dict_get "callback" _) with (Some (VStr c)).
    cbv beta iota. rewrite H1, H2. split; reflexivity. }
  split.
  - exact (ButtonMenu_tree_ind P Q Hmenu Hleaf Hsub).
  - exact (ButtonOption_tree_ind P Q Hmenu Hleaf Hsub).
Qed.

(** X14: what [to_dict] writes is always a document of the file format in
    which every required field is present, at every depth: [question],
    [max_per_row] and [menu_id] in each menu, [text] and [callback] in each
    option, with fields of the annotated types. *)
Theorem ButtonMenu_to_dict_document (m : ButtonMenu) :
  menu_document (ButtonMenu_to_dict m) = true /\
  menu_complete (ButtonMenu_to_dict m) = true /\
  exists d, ButtonMenu_to_dict m = VDict d /\
            dict_get "question" d = Some (VStr (question m)) /\
            dict_get "max_per_row" d = Some (VInt (max_per_row m)) /\
            dict_get "menu_id" d = Some (VStr (menu_id m)).
Proof.
  destruct (proj1 to_dict_document m) as [H1 H2].
  split; [exact H1|]. split; [exact H2|].
  destruct m as [q opts mpr i]. eexists. split; [reflexivity|].
  repeat split.
Qed.

(** X15: [to_dict] loses nothing: two menu trees with the same document are
    the same tree. *)
Theorem ButtonMenu_to_dict_injective (t1 t2 : ButtonMenu) :
  ButtonMenu_to_dict t1 = ButtonMenu_to_dict t2 -> t1 = t2.
Proof.
  intros Heq.
  destruct (proj1 from_dict_to_dict t1 empty_world) as [w1 H1].
  destruct (proj1 from_dict_to_dict t2 empty_world) as [w2 H2].
  rewrite Heq, H2 in H1. congruence.
Qed.

Lemma ButtonMenu_to_dict_injective_witness : menu_m1 = menu_m1.
Proof. apply (ButtonMenu_to_dict_injective menu_m1 menu_m1). reflexivity. Defined.

(** X16: the defaults of [from_dict].  A dict with a string [question] and
    none of [options], [max_per_row] and [menu_id] deserializes to the menu
    with that question, no options, [max_per_row = 2] and the identifier
    drawn from the default factory; exactly one identifier is drawn. *)
Theorem ButtonMenu_from_dict_defaults
    (d : list (string * value)) (q : string) (w : World) :
  dict_get "question" d = Some (VStr q) ->
  dict_get "options" d = None ->
  dict_get "max_per_row" d = None ->
  dict_get "menu_id" d = None ->
  ButtonMenu_from_dict (VDict d) w =
    (Return (mkButtonMenu q [] 2 (uuid4 w (uuid_calls w))),
     set_uuid_calls (S (uuid_calls w)) w).
Proof.
  intros Hq Ho Hm Hi. rewrite ButtonMenu_from_dict_dict.
  unfold dict_index. rewrite Hq, Ho, Hm, Hi. reflexivity.
Qed.

Lemma ButtonMenu_from_dict_defaults_witness :
  ButtonMenu_from_dict (VDict document_question_only) empty_world =
    (Return (mkButtonMenu "Q" [] 2 "u0"), set_uuid_calls 1 empty_world).
Proof.
  apply (ButtonMenu_from_dict_defaults document_question_only "Q" empty_world);
    reflexivity.
Defined.

(** X17: an option whose [sub_menu] key is present but does not hold a
    dict ([null], a number, a string, a list) cannot be deserialized: the
    sub-menu is read first, [.get] fails on it with [AttributeError], and
    the option's own [text] and [callback] are never looked at. *)
Theorem ButtonOption_from_dict_sub_menu_not_dict
    (d : list (string * value)) (v : value) (w : World) :
  dict_get "sub_menu" d = Some v ->
  (forall d', v <> VDict d') ->
  ButtonOption_from_dict (VDict d) w = (Raise AttributeError, w).
Proof.
  intros Hs Hv. rewrite ButtonOption_from_dict_dict. rewrite Hs.
  unfold bind. destruct v; try reflexivity. exfalso. exact (Hv _ eq_refl).
Qed.

Lemma ButtonOption_from_dict_sub_menu_not_dict_witness :
  ButtonOption_from_dict (VDict document_null_sub_menu) empty_world =
    (Raise AttributeError, empty_world).
Proof.
  apply (ButtonOption_from_dict_sub_menu_not_dict document_null_sub_menu VNone).
  - reflexivity.
  - discriminate.
Defined.

(** ** Presenting twice *)

(** X18: presenting overwrites.  When a second menu is presented under the
    identifier of an earlier one, the registry keeps the second tree only,
    every other entry being as before the first presentation; a token of
    that identifier is then resolved against the second tree, so a callback
    that only the first tree had no longer resolves. *)
Theorem show_menu_overwrites
    (w : World) (m1 m2 : ButtonMenu) (chat1 chat2 : option string)
    (via1 via2 : bool) (c : string) :
  menu_id m1 = menu_id m2 ->
  let w' := snd (show_menu m2 chat2 via2 (snd (show_menu m1 chat1 via1 w))) in
  _menu_registry w' = <[menu_id m2 := m2]> (_menu_registry w) /\
  (contains ":" (menu_id m2) = false ->
   find_option m2 c = None ->
   handle_callback (address_token (menu_id m2) c) w' = (Return None, w')).
Proof.
  intros Hid. cbv zeta.
  assert (Hreg : _menu_registry
                   (snd (show_menu m2 chat2 via2 (snd (show_menu m1 chat1 via1 w))))
                 = <[menu_id m2 := m2]> (_menu_registry w)).
  { rewrite !show_menu_registry, Hid. apply insert_insert_eq. }
  split; [exact Hreg|]. intros Hsep Hfind.
  rewrite (handle_callback_split _ _ _ _ (split_once_token _ c Hsep)).
  rewrite Hreg, lookup_insert_eq, Hfind. reflexivity.
Qed.

Lemma show_menu_overwrites_witness :
  let w' := snd (show_menu (set_max_per_row menu_s1 1) None true
                   (snd (show_menu menu_s1 None true empty_world))) in
  _menu_registry w' = <[ "s1" := set_max_per_row menu_s1 1 ]> ∅ /\
  handle_callback (address_token "s1" "a") w' = (Return None, w').
Proof.
  pose proof (show_menu_overwrites empty_world menu_s1 (set_max_per_row menu_s1 1)
                None None true true "a" eq_refl) as [Hreg Hnone].
  split; [exact Hreg|]. apply Hnone; reflexivity.
Defined.
